(** * OpenSBI platform abstraction: [include/sbi/sbi_platform.h]

    A shallow embedding of the platform descriptor ([struct sbi_platform]),
    of the feature-query macros and of the inline accessors that dispatch
    to the board's entry points, followed by the properties that the
    accessors satisfy.

    Conventions.
    - Fixed-width integers ([u32], [u64], [int], [ulong], [char]) are [Z];
      the conversions that C performs are written out ([to_u64],
      [wrap_s32]).
    - A pointer to a descriptor is an [option]: [None] is [NULL].
    - An entry point of the operation table is an [option] of a function
      in the monad [M]: [None] is a null function pointer.
    - A board entry point runs on a [machine] (the memory cells that output
      pointers refer to, and the state of the board); it may fail to return
      (a blocking [ipi_sync], a reboot that takes effect), which is the
      [None] result of [M]. *)

From Stdlib Require Import ZArith Lia Bool List String.
From stdpp Require Import base option gmap.

Import ListNotations.
Local Open Scope Z_scope.

(** ** C integer types and conversions *)

Module CTypes.

Definition u32 : Type := Z.
Definition u64 : Type := Z.
Definition ulong : Type := Z.
Definition int : Type := Z.
Definition char : Type := Z.

(** Conversion of an integer value to [u64] (reduction modulo 2^64). *)
Definition to_u64 (z : Z) : u64 := z mod 2 ^ 64.

(** The value of a 32-bit pattern read as a signed [int]. *)
Definition wrap_s32 (z : Z) : int := (z + 2 ^ 31) mod 2 ^ 32 - 2 ^ 31.

(** Truth value of a C scalar used as a condition. *)
Definition truthy (z : Z) : bool := negb (z =? 0).

Section Shift.
(** [a << n] on an [int] whose shift count reaches the width of [int]
    is undefined in C.  The value that the compiled code produces in
    that case is left open: [shl_oob a n] stands for it and every
    statement below holds for every choice of it.  Whatever it is, it
    is an [int], hence the [wrap_s32]. *)
Variable shl_oob : Z -> Z -> Z.

(** [a << n] for [a : int], [n : u32].  For [n < 32] the bits are
    shifted and the low 32 bits are kept (so [1 << 31] is [INT_MIN],
    as GCC defines it). *)
Definition shl_int (a : int) (n : u32) : int :=
  if n <? 32 then wrap_s32 (Z.shiftl a n) else wrap_s32 (shl_oob a n).
End Shift.

End CTypes.
Import CTypes.

(** ** Layout of the packed structure *)

Module Layout.

(** Offset of name in struct sbi_platform *)
Definition SBI_PLATFORM_NAME_OFFSET : Z := 0x0.
(** Offset of features in struct sbi_platform *)
Definition SBI_PLATFORM_FEATURES_OFFSET : Z := 0x40.
(** Offset of hart_count in struct sbi_platform *)
Definition SBI_PLATFORM_HART_COUNT_OFFSET : Z := 0x48.
(** Offset of hart_stack_size in struct sbi_platform *)
Definition SBI_PLATFORM_HART_STACK_SIZE_OFFSET : Z := 0x4c.

(** The types of the members of [struct sbi_platform]. *)
Inductive ctype : Type :=
| TChar
| TU32
| TU64
| TFunPtr
| TArray (elt : ctype) (len : Z).

(** Size in bytes.  [char], [u32] and [u64] take 1, 4 and 8 bytes;
    [ptr_size] is the size of a function pointer (4 on RV32, 8 on
    RV64). *)
Fixpoint sizeof (ptr_size : Z) (t : ctype) : Z :=
  match t with
  | TChar => 1
  | TU32 => 4
  | TU64 => 8
  | TFunPtr => ptr_size
  | TArray elt len => len * sizeof ptr_size elt
  end.

(** The members of [struct sbi_platform], in declaration order. *)
Definition sbi_platform_members : list (string * ctype) :=
  [ ("name", TArray TChar 64);
    ("features", TU64);
    ("hart_count", TU32);
    ("hart_stack_size", TU32);
    ("disabled_hart_mask", TU64);
    ("early_init", TFunPtr);
    ("final_init", TFunPtr);
    ("pmp_region_count", TFunPtr);
    ("pmp_region_info", TFunPtr);
    ("console_putc", TFunPtr);
    ("console_getc", TFunPtr);
    ("console_init", TFunPtr);
    ("irqchip_init", TFunPtr);
    ("ipi_inject", TFunPtr);
    ("ipi_sync", TFunPtr);
    ("ipi_clear", TFunPtr);
    ("ipi_init", TFunPtr);
    ("timer_value", TFunPtr);
    ("timer_event_start", TFunPtr);
    ("timer_event_stop", TFunPtr);
    ("timer_init", TFunPtr);
    ("system_reboot", TFunPtr);
    ("system_shutdown", TFunPtr) ]%string.

(** [offsetof] in a [__packed] structure: members follow one another
    with no padding, so the offset of a member is the sum of the sizes
    of the members declared before it. *)
Fixpoint packed_offsetof (ptr_size : Z) (members : list (string * ctype))
         (base : Z) (member : string) : option Z :=
  match members with
  | [] => None
  | (m, t) :: rest =>
      if String.eqb m member then Some base
      else packed_offsetof ptr_size rest (base + sizeof ptr_size t) member
  end.

Definition offsetof (ptr_size : Z) (member : string) : option Z :=
  packed_offsetof ptr_size sbi_platform_members 0 member.

End Layout.

(** ** Feature flags *)

(** Possible feature flags of a platform ([enum sbi_platform_features]) *)
Inductive sbi_platform_feature : Type :=
| HAS_MMIO_TIMER_VALUE
| HAS_HART_HOTPLUG
| HAS_PMP
| HAS_SCOUNTEREN
| HAS_MCOUNTEREN
| HAS_MFAULTS_DELEGATION.

(** Platform has MMIO based timer *)
Definition SBI_PLATFORM_HAS_MMIO_TIMER_VALUE : int := Z.shiftl 1 0.
(** Platform has HART hotplug support *)
Definition SBI_PLATFORM_HAS_HART_HOTPLUG : int := Z.shiftl 1 1.
(** Platform has PMP support *)
Definition SBI_PLATFORM_HAS_PMP : int := Z.shiftl 1 2.
(** Platform has S-mode counter enable *)
Definition SBI_PLATFORM_HAS_SCOUNTEREN : int := Z.shiftl 1 3.
(** Platform has M-mode counter enable *)
Definition SBI_PLATFORM_HAS_MCOUNTEREN : int := Z.shiftl 1 4.
(** Platform has fault delegation support *)
Definition SBI_PLATFORM_HAS_MFAULTS_DELEGATION : int := Z.shiftl 1 5.

(** Default feature set for a platform *)
Definition SBI_PLATFORM_DEFAULT_FEATURES : int :=
  Z.lor SBI_PLATFORM_HAS_MMIO_TIMER_VALUE
    (Z.lor SBI_PLATFORM_HAS_PMP
       (Z.lor SBI_PLATFORM_HAS_SCOUNTEREN
          (Z.lor SBI_PLATFORM_HAS_MCOUNTEREN
             SBI_PLATFORM_HAS_MFAULTS_DELEGATION))).

(** Position of the bit of a feature in the [features] mask. *)
Definition feature_bit (F : sbi_platform_feature) : Z :=
  match F with
  | HAS_MMIO_TIMER_VALUE => 0
  | HAS_HART_HOTPLUG => 1
  | HAS_PMP => 2
  | HAS_SCOUNTEREN => 3
  | HAS_MCOUNTEREN => 4
  | HAS_MFAULTS_DELEGATION => 5
  end.

(** The enumerator of a feature. *)
Definition feature_flag (F : sbi_platform_feature) : int :=
  match F with
  | HAS_MMIO_TIMER_VALUE => SBI_PLATFORM_HAS_MMIO_TIMER_VALUE
  | HAS_HART_HOTPLUG => SBI_PLATFORM_HAS_HART_HOTPLUG
  | HAS_PMP => SBI_PLATFORM_HAS_PMP
  | HAS_SCOUNTEREN => SBI_PLATFORM_HAS_SCOUNTEREN
  | HAS_MCOUNTEREN => SBI_PLATFORM_HAS_MCOUNTEREN
  | HAS_MFAULTS_DELEGATION => SBI_PLATFORM_HAS_MFAULTS_DELEGATION
  end.

Definition all_features : list sbi_platform_feature :=
  [ HAS_MMIO_TIMER_VALUE; HAS_HART_HOTPLUG; HAS_PMP;
    HAS_SCOUNTEREN; HAS_MCOUNTEREN; HAS_MFAULTS_DELEGATION ].

(** ** The machine on which board entry points run *)

Section Platform.

(** State of the board behind the entry points (device registers,
    pending interrupts, console, ...): opaque to the dispatch layer. *)
Variable board : Type.

(** [ram] holds the [ulong] cells that output pointers refer to, by
    address. *)
Record machine : Type := Machine {
  ram : gmap Z ulong;
  hw : board
}.

(** A computation on the machine that yields an [R] when it returns,
    and [None] when it never returns to its caller. *)
Definition M (R : Type) : Type := machine -> option (R * machine).

(** [return r;] *)
Definition ret {R : Type} (r : R) : M R := fun m => Some (r, m).

(** [*p] for [p : ulong *]. *)
Definition load (m : machine) (p : Z) : option ulong := ram m !! p.

(** ** Representation of a platform ([struct sbi_platform]) *)

Record sbi_platform : Type := {
  (** Name of the platform *)
  name : string;
  (** Supported features *)
  features : u64;
  (** Total number of HARTs *)
  hart_count : u32;
  (** Per-HART stack size for exception/interrupt handling *)
  hart_stack_size : u32;
  (** Mask representing the set of disabled HARTs *)
  disabled_hart_mask : u64;

  (** Platform early initialization *)
  early_init : option (u32 -> bool -> M int);
  (** Platform final initialization *)
  final_init : option (u32 -> bool -> M int);

  (** Get number of PMP regions for given HART *)
  pmp_region_count : option (u32 -> M u32);
  (** Get PMP regions details (namely: protection, base address, and
      size) for given HART; the last three arguments are the addresses
      [prot], [addr] and [log2size] *)
  pmp_region_info : option (u32 -> u32 -> Z -> Z -> Z -> M int);

  (** Write a character to the platform console output *)
  console_putc : option (char -> M unit);
  (** Read a character from the platform console input *)
  console_getc : option (M char);
  (** Initialize the platform console *)
  console_init : option (M int);

  (** Initialize the platform interrupt controller *)
  irqchip_init : option (u32 -> bool -> M int);

  (** Inject IPI to a target HART *)
  ipi_inject : option (u32 -> u32 -> M unit);
  (** Wait for target HART to acknowledge IPI *)
  ipi_sync : option (u32 -> u32 -> M unit);
  (** Clear IPI for a target HART *)
  ipi_clear : option (u32 -> M unit);
  (** Initialize IPI for given HART *)
  ipi_init : option (u32 -> bool -> M int);

  (** Get MMIO timer value *)
  timer_value : option (M u64);
  (** Start MMIO timer event for a target HART *)
  timer_event_start : option (u32 -> u64 -> M unit);
  (** Stop MMIO timer event for a target HART *)
  timer_event_stop : option (u32 -> M unit);
  (** Initialize MMIO timer for given HART *)
  timer_init : option (u32 -> bool -> M int);

  (** Reboot the platform *)
  system_reboot : option (u32 -> M int);
  (** Shutdown or poweroff the platform *)
  system_shutdown : option (u32 -> M int)
}.

(** A well-formed descriptor: every integer member is in the range of
    its type, and every HART has a bit in [disabled_hart_mask]. *)
Definition wf_platform (p : sbi_platform) : Prop :=
  0 <= features p < 2 ^ 64 /\
  0 <= hart_count p < 2 ^ 32 /\
  0 <= hart_stack_size p < 2 ^ 32 /\
  0 <= disabled_hart_mask p < 2 ^ 64 /\
  hart_count p <= 64.

(** ** Feature-query macros

    [((__p)->features & FLAG)]: the argument is dereferenced with no
    test, so the macros are defined on a non-null descriptor only;
    [None] is the undefined behaviour of [NULL->features].  The value
    is the [u64] result of the [&]. *)

Definition sbi_platform_has_mmio_timer_value (p : option sbi_platform)
  : option u64 :=
  match p with
  | Some d => Some (Z.land (features d) (to_u64 SBI_PLATFORM_HAS_MMIO_TIMER_VALUE))
  | None => None
  end.

Definition sbi_platform_has_hart_hotplug (p : option sbi_platform)
  : option u64 :=
  match p with
  | Some d => Some (Z.land (features d) (to_u64 SBI_PLATFORM_HAS_HART_HOTPLUG))
  | None => None
  end.

Definition sbi_platform_has_pmp (p : option sbi_platform) : option u64 :=
  match p with
  | Some d => Some (Z.land (features d) (to_u64 SBI_PLATFORM_HAS_PMP))
  | None => None
  end.

Definition sbi_platform_has_scounteren (p : option sbi_platform)
  : option u64 :=
  match p with
  | Some d => Some (Z.land (features d) (to_u64 SBI_PLATFORM_HAS_SCOUNTEREN))
  | None => None
  end.

Definition sbi_platform_has_mcounteren (p : option sbi_platform)
  : option u64 :=
  match p with
  | Some d => Some (Z.land (features d) (to_u64 SBI_PLATFORM_HAS_MCOUNTEREN))
  | None => None
  end.

Definition sbi_platform_has_mfaults_delegation (p : option sbi_platform)
  : option u64 :=
  match p with
  | Some d => Some (Z.land (features d) (to_u64 SBI_PLATFORM_HAS_MFAULTS_DELEGATION))
  | None => None
  end.

(** The query macro of each feature. *)
Definition feature_query (F : sbi_platform_feature)
  : option sbi_platform -> option u64 :=
  match F with
  | HAS_MMIO_TIMER_VALUE => sbi_platform_has_mmio_timer_value
  | HAS_HART_HOTPLUG => sbi_platform_has_hart_hotplug
  | HAS_PMP => sbi_platform_has_pmp
  | HAS_SCOUNTEREN => sbi_platform_has_scounteren
  | HAS_MCOUNTEREN => sbi_platform_has_mcounteren
  | HAS_MFAULTS_DELEGATION => sbi_platform_has_mfaults_delegation
  end.

(** The mask rebuilt from the answers of the queries: the flag of each
    feature that a query reports, or-ed together. *)
Fixpoint collect_features (p : option sbi_platform)
         (Fs : list sbi_platform_feature) : option u64 :=
  match Fs with
  | [] => Some 0
  | F :: rest =>
      match feature_query F p, collect_features p rest with
      | Some v, Some acc =>
          Some (Z.lor (if truthy v then feature_flag F else 0) acc)
      | _, _ => None
      end
  end.

Definition read_back_features (p : option sbi_platform) : option u64 :=
  collect_features p all_features.

(** The flags of a list of features or-ed together. *)
Definition features_of (Fs : list sbi_platform_feature) : u64 :=
  fold_right (fun F acc => Z.lor (feature_flag F) acc) 0 Fs.

(** ** Identity and topology accessors *)

(** Get name of the platform: pointer to platform name on success and
    NULL on failure *)
Definition sbi_platform_name (plat : option sbi_platform) : option string :=
  match plat with
  | Some p => Some (name p)
  | None => None
  end.

Section HartDisabled.
Variable shl_oob : Z -> Z -> Z.

(** Check whether the given HART is disabled:
    [plat && (plat->disabled_hart_mask & (1 << hartid))].  The shift
    is done on the [int] constant [1]; its result is converted to
    [u64] for the [&]. *)
Definition sbi_platform_hart_disabled (plat : option sbi_platform)
           (hartid : u32) : bool :=
  match plat with
  | Some p =>
      if truthy (Z.land (disabled_hart_mask p)
                        (to_u64 (shl_int shl_oob 1 hartid)))
      then true
      else false
  | None => false
  end.
End HartDisabled.

(** Get total number of HARTs supported by the platform *)
Definition sbi_platform_hart_count (plat : option sbi_platform) : u32 :=
  match plat with
  | Some p => hart_count p
  | None => 0
  end.

(** Get per-HART stack size for exception/interrupt handling *)
Definition sbi_platform_hart_stack_size (plat : option sbi_platform) : u32 :=
  match plat with
  | Some p => hart_stack_size p
  | None => 0
  end.


(** ** Dispatch to the operation table

    Each accessor is [if (plat && plat->op) return plat->op(args);]
    followed by the [return] of the default. *)

(** Early initialization of a given HART *)
Definition sbi_platform_early_init (plat : option sbi_platform)
           (hartid : u32) (cold_boot : bool) : M int :=
  match plat with
  | Some p =>
      match early_init p with
      | Some f => f hartid cold_boot
      | None => ret 0
      end
  | None => ret 0
  end.

(** Final initialization of a HART *)
Definition sbi_platform_final_init (plat : option sbi_platform)
           (hartid : u32) (cold_boot : bool) : M int :=
  match plat with
  | Some p =>
      match final_init p with
      | Some f => f hartid cold_boot
      | None => ret 0
      end
  | None => ret 0
  end.

(** Get the number of PMP regions of a HART *)
Definition sbi_platform_pmp_region_count (plat : option sbi_platform)
           (hartid : u32) : M u32 :=
  match plat with
  | Some p =>
      match pmp_region_count p with
      | Some f => f hartid
      | None => ret 0
      end
  | None => ret 0
  end.

(** Get PMP regions details (namely: protection, base address, and size)
    of a HART; [prot], [addr] and [log2size] are the output pointers,
    handed to the entry point as they are. *)
Definition sbi_platform_pmp_region_info (plat : option sbi_platform)
           (hartid index : u32) (prot addr log2size : Z) : M int :=
  match plat with
  | Some p =>
      match pmp_region_info p with
      | Some f => f hartid index prot addr log2size
      | None => ret 0
      end
  | None => ret 0
  end.

(** Write a character to the platform console output *)
Definition sbi_platform_console_putc (plat : option sbi_platform)
           (ch : char) : M unit :=
  match plat with
  | Some p =>
      match console_putc p with
      | Some f => f ch
      | None => ret tt
      end
  | None => ret tt
  end.

(** Read a character from the platform console input *)
Definition sbi_platform_console_getc (plat : option sbi_platform) : M char :=
  match plat with
  | Some p =>
      match console_getc p with
      | Some f => f
      | None => ret 0
      end
  | None => ret 0
  end.

(** Initialize the platform console *)
Definition sbi_platform_console_init (plat : option sbi_platform) : M int :=
  match plat with
  | Some p =>
      match console_init p with
      | Some f => f
      | None => ret 0
      end
  | None => ret 0
  end.

(** Initialize the platform interrupt controller for given HART *)
Definition sbi_platform_irqchip_init (plat : option sbi_platform)
           (hartid : u32) (cold_boot : bool) : M int :=
  match plat with
  | Some p =>
      match irqchip_init p with
      | Some f => f hartid cold_boot
      | None => ret 0
      end
  | None => ret 0
  end.

(** Inject IPI to a target HART *)
Definition sbi_platform_ipi_inject (plat : option sbi_platform)
           (target_hart source_hart : u32) : M unit :=
  match plat with
  | Some p =>
      match ipi_inject p with
      | Some f => f target_hart source_hart
      | None => ret tt
      end
  | None => ret tt
  end.

(** Wait for target HART to acknowledge IPI *)
Definition sbi_platform_ipi_sync (plat : option sbi_platform)
           (target_hart source_hart : u32) : M unit :=
  match plat with
  | Some p =>
      match ipi_sync p with
      | Some f => f target_hart source_hart
      | None => ret tt
      end
  | None => ret tt
  end.

(** Clear IPI for a target HART *)
Definition sbi_platform_ipi_clear (plat : option sbi_platform)
           (target_hart : u32) : M unit :=
  match plat with
  | Some p =>
      match ipi_clear p with
      | Some f => f target_hart
      | None => ret tt
      end
  | None => ret tt
  end.

(** Initialize the platform IPI support for given HART *)
Definition sbi_platform_ipi_init (plat : option sbi_platform)
           (hartid : u32) (cold_boot : bool) : M int :=
  match plat with
  | Some p =>
      match ipi_init p with
      | Some f => f hartid cold_boot
      | None => ret 0
      end
  | None => ret 0
  end.

(** Get MMIO timer value *)
Definition sbi_platform_timer_value (plat : option sbi_platform) : M u64 :=
  match plat with
  | Some p =>
      match timer_value p with
      | Some f => f
      | None => ret 0
      end
  | None => ret 0
  end.

(** Start MMIO timer event for a target HART *)
Definition sbi_platform_timer_event_start (plat : option sbi_platform)
           (target_hart : u32) (next_event : u64) : M unit :=
  match plat with
  | Some p =>
      match timer_event_start p with
      | Some f => f target_hart next_event
      | None => ret tt
      end
  | None => ret tt
  end.

(** Stop MMIO timer event for a target HART *)
Definition sbi_platform_timer_event_stop (plat : option sbi_platform)
           (target_hart : u32) : M unit :=
  match plat with
  | Some p =>
      match timer_event_stop p with
      | Some f => f target_hart
      | None => ret tt
      end
  | None => ret tt
  end.

(** Initialize the platform MMIO timer for given HART *)
Definition sbi_platform_timer_init (plat : option sbi_platform)
           (hartid : u32) (cold_boot : bool) : M int :=
  match plat with
  | Some p =>
      match timer_init p with
      | Some f => f hartid cold_boot
      | None => ret 0
      end
  | None => ret 0
  end.

(** Reboot the platform *)
Definition sbi_platform_system_reboot (plat : option sbi_platform)
           (type : u32) : M int :=
  match plat with
  | Some p =>
      match system_reboot p with
      | Some f => f type
      | None => ret 0
      end
  | None => ret 0
  end.

(** Shutdown or poweroff the platform *)
Definition sbi_platform_system_shutdown (plat : option sbi_platform)
           (type : u32) : M int :=
  match plat with
  | Some p =>
      match system_shutdown p with
      | Some f => f type
      | None => ret 0
      end
  | None => ret 0
  end.

End Platform.

Arguments Machine {board} ram hw.
Arguments ram {board} m.
Arguments hw {board} m.
Arguments ret {board R} r m.
Arguments load {board} m p.
Arguments name {board} s.
Arguments features {board} s.
Arguments hart_count {board} s.
Arguments hart_stack_size {board} s.
Arguments disabled_hart_mask {board} s.
Arguments early_init {board} s.
Arguments final_init {board} s.
Arguments pmp_region_count {board} s.
Arguments pmp_region_info {board} s.
Arguments console_putc {board} s.
Arguments console_getc {board} s.
Arguments console_init {board} s.
Arguments irqchip_init {board} s.
Arguments ipi_inject {board} s.
Arguments ipi_sync {board} s.
Arguments ipi_clear {board} s.
Arguments ipi_init {board} s.
Arguments timer_value {board} s.
Arguments timer_event_start {board} s.
Arguments timer_event_stop {board} s.
Arguments timer_init {board} s.
Arguments system_reboot {board} s.
Arguments system_shutdown {board} s.
Arguments wf_platform {board} p.
Arguments sbi_platform_has_mmio_timer_value {board} p.
Arguments sbi_platform_has_hart_hotplug {board} p.
Arguments sbi_platform_has_pmp {board} p.
Arguments sbi_platform_has_scounteren {board} p.
Arguments sbi_platform_has_mcounteren {board} p.
Arguments sbi_platform_has_mfaults_delegation {board} p.
Arguments feature_query {board} F p.
Arguments collect_features {board} p Fs.
Arguments read_back_features {board} p.
Arguments sbi_platform_name {board} plat.
Arguments sbi_platform_hart_disabled {board} shl_oob plat hartid.
Arguments sbi_platform_hart_count {board} plat.
Arguments sbi_platform_hart_stack_size {board} plat.
Arguments sbi_platform_early_init {board} plat hartid cold_boot m.
Arguments sbi_platform_final_init {board} plat hartid cold_boot m.
Arguments sbi_platform_pmp_region_count {board} plat hartid m.
Arguments sbi_platform_pmp_region_info {board} plat hartid index prot addr log2size m.
Arguments sbi_platform_console_putc {board} plat ch m.
Arguments sbi_platform_console_getc {board} plat m.
Arguments sbi_platform_console_init {board} plat m.
Arguments sbi_platform_irqchip_init {board} plat hartid cold_boot m.
Arguments sbi_platform_ipi_inject {board} plat target_hart source_hart m.
Arguments sbi_platform_ipi_sync {board} plat target_hart source_hart m.
Arguments sbi_platform_ipi_clear {board} plat target_hart m.
Arguments sbi_platform_ipi_init {board} plat hartid cold_boot m.
Arguments sbi_platform_timer_value {board} plat m.
Arguments sbi_platform_timer_event_start {board} plat target_hart next_event m.
Arguments sbi_platform_timer_event_stop {board} plat target_hart m.
Arguments sbi_platform_timer_init {board} plat hartid cold_boot m.
Arguments sbi_platform_system_reboot {board} plat type m.
Arguments sbi_platform_system_shutdown {board} plat type m.

(** ** Descriptors used in the statements and examples *)

(** A descriptor with the given data members and an empty operation
    table. *)
Definition bare_platform {board : Type} (nm : string)
           (feats : u64) (harts stack : u32) (mask : u64)
  : sbi_platform board :=
  {| name := nm;
     features := feats;
     hart_count := harts;
     hart_stack_size := stack;
     disabled_hart_mask := mask;
     early_init := None;
     final_init := None;
     pmp_region_count := None;
     pmp_region_info := None;
     console_putc := None;
     console_getc := None;
     console_init := None;
     irqchip_init := None;
     ipi_inject := None;
     ipi_sync := None;
     ipi_clear := None;
     ipi_init := None;
     timer_value := None;
     timer_event_start := None;
     timer_event_stop := None;
     timer_init := None;
     system_reboot := None;
     system_shutdown := None |}.

(** The descriptor [p] with its [features] member replaced. *)
Definition with_features {board : Type} (p : sbi_platform board)
           (feats : u64) : sbi_platform board :=
  {| name := name p;
     features := feats;
     hart_count := hart_count p;
     hart_stack_size := hart_stack_size p;
     disabled_hart_mask := disabled_hart_mask p;
     early_init := early_init p;
     final_init := final_init p;
     pmp_region_count := pmp_region_count p;
     pmp_region_info := pmp_region_info p;
     console_putc := console_putc p;
     console_getc := console_getc p;
     console_init := console_init p;
     irqchip_init := irqchip_init p;
     ipi_inject := ipi_inject p;
     ipi_sync := ipi_sync p;
     ipi_clear := ipi_clear p;
     ipi_init := ipi_init p;
     timer_value := timer_value p;
     timer_event_start := timer_event_start p;
     timer_event_stop := timer_event_stop p;
     timer_init := timer_init p;
     system_reboot := system_reboot p;
     system_shutdown := system_shutdown p |}.

(** The descriptor [p] with its [disabled_hart_mask] member replaced. *)
Definition with_disabled_hart_mask {board : Type} (p : sbi_platform board)
           (mask : u64) : sbi_platform board :=
  {| name := name p;
     features := features p;
     hart_count := hart_count p;
     hart_stack_size := hart_stack_size p;
     disabled_hart_mask := mask;
     early_init := early_init p;
     final_init := final_init p;
     pmp_region_count := pmp_region_count p;
     pmp_region_info := pmp_region_info p;
     console_putc := console_putc p;
     console_getc := console_getc p;
     console_init := console_init p;
     irqchip_init := irqchip_init p;
     ipi_inject := ipi_inject p;
     ipi_sync := ipi_sync p;
     ipi_clear := ipi_clear p;
     ipi_init := ipi_init p;
     timer_value := timer_value p;
     timer_event_start := timer_event_start p;
     timer_event_stop := timer_event_stop p;
     timer_init := timer_init p;
     system_reboot := system_reboot p;
     system_shutdown := system_shutdown p |}.

(** The shift that RISC-V performs on a 32-bit operand when the count
    reaches 32: only the low five bits of the count are used ([sllw]). *)
Definition shl_riscv (a n : Z) : Z := Z.shiftl a (n mod 32).

(** A board that records the calls it receives in its state (newest
    first) and answers with fixed values; its [ipi_sync] never returns. *)
Definition record_call (code : Z) (m : machine (list Z)) : machine (list Z) :=
  Machine (ram m) (code :: hw m).

Definition recording_platform : sbi_platform (list Z) :=
  {| name := "recorder";
     features := SBI_PLATFORM_DEFAULT_FEATURES;
     hart_count := 4;
     hart_stack_size := 4096;
     disabled_hart_mask := 4;
     early_init := Some (fun _ _ m => Some (-1, record_call 1 m));
     final_init := Some (fun _ _ m => Some (-2, record_call 2 m));
     pmp_region_count := Some (fun _ m => Some (1, record_call 3 m));
     pmp_region_info :=
       Some (fun _ _ prot addr log2size m =>
               Some (-4, Machine (<[prot := 7]> (<[addr := 4096]>
                                   (<[log2size := 12]> (ram m))))
                                 (4 :: hw m)));
     console_putc := Some (fun _ m => Some (tt, record_call 5 m));
     console_getc := Some (fun m => Some (65, record_call 6 m));
     console_init := Some (fun m => Some (-7, record_call 7 m));
     irqchip_init := Some (fun _ _ m => Some (-8, record_call 8 m));
     ipi_inject := Some (fun _ _ m => Some (tt, record_call 9 m));
     ipi_sync := Some (fun _ _ _ => None);
     ipi_clear := Some (fun _ m => Some (tt, record_call 11 m));
     ipi_init := Some (fun _ _ m => Some (-12, record_call 12 m));
     timer_value := Some (fun m => Some (1000, record_call 13 m));
     timer_event_start := Some (fun _ _ m => Some (tt, record_call 14 m));
     timer_event_stop := Some (fun _ m => Some (tt, record_call 15 m));
     timer_init := Some (fun _ _ m => Some (-16, record_call 16 m));
     system_reboot := Some (fun _ m => Some (-17, record_call 17 m));
     system_shutdown := Some (fun _ m => Some (-18, record_call 18 m)) |}.

(** The recording board with the [ipi_sync] and [system_reboot] entry
    points left null. *)
Definition recording_platform_partial : sbi_platform (list Z) :=
  {| name := name recording_platform;
     features := features recording_platform;
     hart_count := hart_count recording_platform;
     hart_stack_size := hart_stack_size recording_platform;
     disabled_hart_mask := disabled_hart_mask recording_platform;
     early_init := early_init recording_platform;
     final_init := final_init recording_platform;
     pmp_region_count := pmp_region_count recording_platform;
     pmp_region_info := pmp_region_info recording_platform;
     console_putc := console_putc recording_platform;
     console_getc := console_getc recording_platform;
     console_init := console_init recording_platform;
     irqchip_init := irqchip_init recording_platform;
     ipi_inject := ipi_inject recording_platform;
     ipi_sync := None;
     ipi_clear := ipi_clear recording_platform;
     ipi_init := ipi_init recording_platform;
     timer_value := timer_value recording_platform;
     timer_event_start := timer_event_start recording_platform;
     timer_event_stop := timer_event_stop recording_platform;
     timer_init := timer_init recording_platform;
     system_reboot := None;
     system_shutdown := system_shutdown recording_platform |}.

(** A machine whose cells at 4096, 4104 and 4112 hold 7, 8 and 9. *)
Definition sample_machine {board : Type} (b : board) : machine board :=
  Machine (<[4096 := 7]> (<[4104 := 8]> (<[4112 := 9]> ∅))) b.

(** Four HARTs, HART 2 disabled ([disabled_hart_mask = 0b0100]). *)
Definition quad_platform {board : Type} : sbi_platform board :=
  bare_platform "quad" 0 4 8192 4.

(** Sixty-four HARTs, HART 40 disabled. *)
Definition wide_platform {board : Type} : sbi_platform board :=
  bare_platform "wide" 0 64 8192 (2 ^ 40).

(** [sizeof] of a packed structure: the sum of the sizes of its
    members. *)
Definition packed_sizeof (ptr_size : Z)
           (members : list (string * Layout.ctype)) : Z :=
  fold_right (fun mt acc => Layout.sizeof ptr_size (snd mt) + acc) 0 members.

(** [sizeof (struct sbi_platform)]. *)
Definition sizeof_sbi_platform (ptr_size : Z) : Z :=
  packed_sizeof ptr_size Layout.sbi_platform_members.

(** The members that follow the five data members: the operation table,
    in declaration order. *)
Definition operation_members : list string :=
  map fst (skipn 5 Layout.sbi_platform_members).

(** * Properties *)

(** ** Bit arithmetic *)

Lemma truthy_land_pow2 (a k : Z) :
  0 <= k -> truthy (Z.land a (2 ^ k)) = Z.testbit a k.
Proof.
  intros Hk. unfold truthy.
  destruct (Z.testbit a k) eqn:E.
  - apply negb_true_iff, Z.eqb_neq. intros H0.
    assert (Hb : Z.testbit (Z.land a (2 ^ k)) k = true).
    { rewrite Z.land_spec, E, Z.pow2_bits_true by assumption. reflexivity. }
    rewrite H0, Z.bits_0 in Hb. discriminate.
  - apply negb_false_iff, Z.eqb_eq, Z.bits_inj'. intros n Hn.
    rewrite Z.land_spec, Z.bits_0, Z.pow2_bits_eqb by assumption.
    destruct (Z.eqb_spec k n) as [->|_].
    + rewrite E. reflexivity.
    + apply andb_false_r.
Qed.

Lemma truthy_true_iff (z : Z) : truthy z = true <-> z <> 0.
Proof.
  unfold truthy. rewrite negb_true_iff. apply Z.eqb_neq.
Qed.

(** [1 << n] below the sign bit is the single bit [n]. *)
Lemma shl_int_1_low (shl_oob : Z -> Z -> Z) (n : Z) :
  0 <= n < 31 -> to_u64 (shl_int shl_oob 1 n) = 2 ^ n.
Proof.
  intros Hn. unfold shl_int.
  destruct (Z.ltb_spec n 32) as [_|?]; [|lia].
  rewrite Z.shiftl_1_l.
  assert (H1 : 0 < 2 ^ n) by (apply Z.pow_pos_nonneg; lia).
  assert (H2 : 2 ^ n < 2 ^ 31) by (apply Z.pow_lt_mono_r; lia).
  unfold wrap_s32, to_u64.
  rewrite (Z.mod_small (2 ^ n + 2 ^ 31)) by lia.
  replace (2 ^ n + 2 ^ 31 - 2 ^ 31) with (2 ^ n) by lia.
  apply Z.mod_small. lia.
Qed.

(** [1 << 31] is [INT_MIN]; converted to [u64] it is
    [0xFFFFFFFF80000000]. *)
Lemma shl_int_1_31 (shl_oob : Z -> Z -> Z) :
  to_u64 (shl_int shl_oob 1 31) = 0xFFFFFFFF80000000.
Proof. reflexivity. Qed.

Lemma sign_extended_mask_bits (n : Z) :
  0 <= n ->
  Z.testbit 0xFFFFFFFF80000000 n = (31 <=? n) && (n <? 64).
Proof.
  intros Hn.
  change 0xFFFFFFFF80000000 with (Z.shiftl (Z.ones 33) 31).
  rewrite Z.shiftl_spec by assumption.
  destruct (Z.leb_spec 31 n) as [Hge|Hlt].
  - rewrite Z.testbit_ones_nonneg by lia.
    destruct (Z.ltb_spec (n - 31) 33), (Z.ltb_spec n 64); simpl; lia || reflexivity.
  - apply Z.testbit_neg_r. lia.
Qed.

(** An [int] converted to [u64] is either below 2^31 or has all of the
    bits 31..63 set. *)
Lemma to_u64_wrap_s32_cases (z : Z) :
  0 <= to_u64 (wrap_s32 z) < 2 ^ 31 \/
  2 ^ 64 - 2 ^ 31 <= to_u64 (wrap_s32 z) < 2 ^ 64.
Proof.
  unfold to_u64, wrap_s32.
  assert (H := Z.mod_pos_bound (z + 2 ^ 31) (2 ^ 32) ltac:(lia)).
  destruct (Z_lt_le_dec ((z + 2 ^ 31) mod 2 ^ 32) (2 ^ 31)) as [Hneg|Hpos].
  - right.
    replace (((z + 2 ^ 31) mod 2 ^ 32 - 2 ^ 31) mod 2 ^ 64)
      with ((z + 2 ^ 31) mod 2 ^ 32 - 2 ^ 31 + 2 ^ 64); [lia|].
    apply Z.mod_unique with (q := -1); lia.
  - left. rewrite Z.mod_small by lia. lia.
Qed.

Lemma shl_int_as_u64 (shl_oob : Z -> Z -> Z) (a n : Z) :
  0 <= to_u64 (shl_int shl_oob a n) < 2 ^ 31 \/
  2 ^ 64 - 2 ^ 31 <= to_u64 (shl_int shl_oob a n) < 2 ^ 64.
Proof.
  unfold shl_int. destruct (n <? 32); apply to_u64_wrap_s32_cases.
Qed.

Lemma testbit_below_pow2 (v h : Z) :
  0 <= v < 2 ^ 31 -> 31 <= h -> Z.testbit v h = false.
Proof.
  intros Hv Hh.
  rewrite <- (Z.mod_small v (2 ^ 31)) by assumption.
  apply Z.mod_pow2_bits_high. lia.
Qed.

Lemma testbit_31_of_sign_extended (v : Z) :
  2 ^ 64 - 2 ^ 31 <= v < 2 ^ 64 -> Z.testbit v 31 = true.
Proof.
  intros Hv. apply Z.testbit_true; [lia|].
  assert (Hq : v / 2 ^ 31 = 2 ^ 33 - 1).
  { symmetry. apply Z.div_unique with (r := v - (2 ^ 64 - 2 ^ 31)); lia. }
  rewrite Hq. reflexivity.
Qed.

(** ** The disabled-HART test *)

Section HartDisabledFacts.
Context {board : Type}.
Variable shl_oob : Z -> Z -> Z.
Implicit Types (p : sbi_platform board) (hartid : Z).

Lemma hart_disabled_unfold p hartid :
  sbi_platform_hart_disabled shl_oob (Some p) hartid =
  truthy (Z.land (disabled_hart_mask p) (to_u64 (shl_int shl_oob 1 hartid))).
Proof.
  unfold sbi_platform_hart_disabled.
  destruct (truthy _); reflexivity.
Qed.

(** Below the sign bit of [int] the test reads exactly the bit of the
    HART. *)
Lemma hart_disabled_below_31 p hartid :
  0 <= hartid < 31 ->
  sbi_platform_hart_disabled shl_oob (Some p) hartid =
  Z.testbit (disabled_hart_mask p) hartid.
Proof.
  intros H. rewrite hart_disabled_unfold, shl_int_1_low by assumption.
  apply truthy_land_pow2. lia.
Qed.

(** For HART 31 the test reads all of the bits 31..63 at once. *)
Lemma hart_disabled_at_31 p :
  sbi_platform_hart_disabled shl_oob (Some p) 31 = true <->
  exists i, 31 <= i < 64 /\ Z.testbit (disabled_hart_mask p) i = true.
Proof.
  rewrite hart_disabled_unfold, shl_int_1_31, truthy_true_iff.
  set (mask := disabled_hart_mask p).
  split.
  - intros Hnz.
    assert (Hpos : 0 < Z.land mask 0xFFFFFFFF80000000).
    { assert (0 <= Z.land mask 0xFFFFFFFF80000000)
        by (apply Z.land_nonneg; right; lia).
      lia. }
    pose proof (Z.bit_log2 _ Hpos) as Hbit.
    pose proof (Z.log2_nonneg (Z.land mask 0xFFFFFFFF80000000)) as Hlog.
    rewrite Z.land_spec, sign_extended_mask_bits in Hbit by assumption.
    apply andb_true_iff in Hbit as [Hm Hr].
    apply andb_true_iff in Hr as [Hlo Hhi].
    exists (Z.log2 (Z.land mask 0xFFFFFFFF80000000)).
    apply Z.leb_le in Hlo. apply Z.ltb_lt in Hhi. auto.
  - intros (i & Hi & Hbit) H0.
    assert (Hb : Z.testbit (Z.land mask 0xFFFFFFFF80000000) i = true).
    { rewrite Z.land_spec, Hbit, sign_extended_mask_bits by lia.
      cbn [andb]. apply andb_true_iff.
      split; [apply Z.leb_le|apply Z.ltb_lt]; lia. }
    rewrite H0, Z.bits_0 in Hb. discriminate.
Qed.

(** Whatever HART is asked about and whatever the shift yields, the test
    never reads one bit above bit 31 alone: for each such bit some mask
    makes the answer differ from the bit. *)
Lemma hart_disabled_no_high_bit p hartid i :
  32 <= i < 64 ->
  exists mask,
    0 <= mask < 2 ^ 64 /\
    sbi_platform_hart_disabled shl_oob
      (Some (with_disabled_hart_mask p mask)) hartid
    <> Z.testbit mask i.
Proof.
  intros Hi.
  assert (Hpow : 2 ^ 32 <= 2 ^ i < 2 ^ 64).
  { split; [apply Z.pow_le_mono_r|apply Z.pow_lt_mono_r]; lia. }
  destruct (shl_int_as_u64 shl_oob 1 hartid) as [Hlow|Hhigh].
  - exists (2 ^ i). split; [lia|].
    rewrite hart_disabled_unfold.
    cbn [with_disabled_hart_mask disabled_hart_mask].
    rewrite Z.land_comm, truthy_land_pow2 by lia.
    rewrite testbit_below_pow2 by (assumption || lia).
    rewrite Z.pow2_bits_true by lia. discriminate.
  - exists (2 ^ 31). split; [lia|].
    rewrite hart_disabled_unfold.
    cbn [with_disabled_hart_mask disabled_hart_mask].
    rewrite Z.land_comm, truthy_land_pow2 by lia.
    rewrite testbit_31_of_sign_extended by assumption.
    rewrite Z.pow2_bits_false by lia. discriminate.
Qed.

End HartDisabledFacts.

(** C1, evaluated on the code.  On the descriptor of the scenario (four
    HARTs, mask 0b0100) the test answers true for HART 2 and false for
    HARTs 0, 1 and 3.  On a descriptor with 64 HARTs of which only HART 40
    is disabled (a well-formed descriptor), the test answers true for
    HART 31 although bit 31 of the mask is clear: the equivalence with bit [hartid] does not hold on all
    of [0, hart_count). *)
Theorem hart_disabled_scenario_and_hart_31 (board : Type)
        (shl_oob : Z -> Z -> Z) :
  (sbi_platform_hart_disabled shl_oob (Some (@quad_platform board)) 2 = true /\
   sbi_platform_hart_disabled shl_oob (Some (@quad_platform board)) 0 = false /\
   sbi_platform_hart_disabled shl_oob (Some (@quad_platform board)) 1 = false /\
   sbi_platform_hart_disabled shl_oob (Some (@quad_platform board)) 3 = false) /\
  (wf_platform (@wide_platform board) /\
   hart_count (@wide_platform board) <= 64 /\
   0 <= 31 < hart_count (@wide_platform board) /\
   Z.testbit (disabled_hart_mask (@wide_platform board)) 31 = false /\
   sbi_platform_hart_disabled shl_oob (Some (@wide_platform board)) 31 = true).
Proof.
  split.
  - repeat split; reflexivity.
  - unfold wf_platform. repeat split; try reflexivity; cbn; lia.
Qed.

(** C8.  The mask test shifts the [int] constant 1.  For HART 31 the
    shifted value is [INT_MIN], which widens to 0xFFFFFFFF80000000, so the
    test answers true exactly when one of the bits 31..63 of
    [disabled_hart_mask] is set.  For a HART in [32, 64) the shift count
    is out of range for [int]: whatever value the shift yields, the test
    does not read the bit of that HART (some mask makes the answer differ
    from it); indeed no HART identity at all reads one of the bits 32..63
    alone. *)
Theorem hart_disabled_int_shift (board : Type) (shl_oob : Z -> Z -> Z)
        (p : sbi_platform board) :
  to_u64 (shl_int shl_oob 1 31) = 0xFFFFFFFF80000000 /\
  (sbi_platform_hart_disabled shl_oob (Some p) 31 = true <->
   exists i, 31 <= i < 64 /\ Z.testbit (disabled_hart_mask p) i = true) /\
  (forall hartid, 32 <= hartid < 64 ->
     exists mask,
       0 <= mask < 2 ^ 64 /\
       sbi_platform_hart_disabled shl_oob
         (Some (with_disabled_hart_mask p mask)) hartid
       <> Z.testbit mask hartid) /\
  (forall hartid i, 32 <= i < 64 ->
     exists mask,
       0 <= mask < 2 ^ 64 /\
       sbi_platform_hart_disabled shl_oob
         (Some (with_disabled_hart_mask p mask)) hartid
       <> Z.testbit mask i).
Proof.
  split; [apply shl_int_1_31|].
  split; [apply hart_disabled_at_31|].
  split.
  - intros hartid Hh. apply hart_disabled_no_high_bit, Hh.
  - intros hartid i Hi. apply hart_disabled_no_high_bit, Hi.
Qed.

(** C8 at a concrete input: HART 40 on the 64-HART descriptor, with the
    shift that RISC-V performs. *)
Lemma hart_disabled_int_shift_witness :
  exists mask,
    0 <= mask < 2 ^ 64 /\
    sbi_platform_hart_disabled shl_riscv
      (Some (with_disabled_hart_mask (@wide_platform unit) mask)) 40
    <> Z.testbit mask 40.
Proof.
  apply (proj1 (proj2 (proj2
           (hart_disabled_int_shift unit shl_riscv wide_platform))) 40).
  lia.
Defined.

(** ** Layout *)

(** C10.  In the packed layout the four leading members are at the
    offsets that the header documents: [name] at 0x0, [features] at 0x40,
    [hart_count] at 0x48 and [hart_stack_size] at 0x4c, whatever the size
    of a pointer. *)
Theorem leading_members_at_documented_offsets (ptr_size : Z) :
  Layout.offsetof ptr_size "name" = Some Layout.SBI_PLATFORM_NAME_OFFSET /\
  Layout.offsetof ptr_size "features" = Some Layout.SBI_PLATFORM_FEATURES_OFFSET /\
  Layout.offsetof ptr_size "hart_count" = Some Layout.SBI_PLATFORM_HART_COUNT_OFFSET /\
  Layout.offsetof ptr_size "hart_stack_size"
    = Some Layout.SBI_PLATFORM_HART_STACK_SIZE_OFFSET /\
  Layout.SBI_PLATFORM_NAME_OFFSET = 0x0 /\
  Layout.SBI_PLATFORM_FEATURES_OFFSET = 0x40 /\
  Layout.SBI_PLATFORM_HART_COUNT_OFFSET = 0x48 /\
  Layout.SBI_PLATFORM_HART_STACK_SIZE_OFFSET = 0x4c.
Proof.
  repeat split; reflexivity.
Qed.

(** ** Feature queries *)

Lemma feature_flag_pow2 (F : sbi_platform_feature) :
  feature_flag F = 2 ^ feature_bit F.
Proof. destruct F; reflexivity. Qed.

Lemma feature_bit_range (F : sbi_platform_feature) : 0 <= feature_bit F < 6.
Proof. destruct F; cbn; lia. Qed.

(** Case analysis on every bit that the goal tests. *)
Ltac case_bits :=
  repeat match goal with
         | |- context [Z.testbit ?a ?k] => destruct (Z.testbit a k)
         end;
  reflexivity.

Lemma testbit_flag_or_zero (c : bool) (k n : Z) :
  0 <= k ->
  Z.testbit (if c then 2 ^ k else 0) n = c && (k =? n).
Proof.
  intros Hk. destruct c.
  - apply Z.pow2_bits_eqb, Hk.
  - apply Z.bits_0.
Qed.

Lemma features_of_defined_bits (Fs : list sbi_platform_feature) :
  Z.land (features_of Fs) 63 = features_of Fs.
Proof.
  induction Fs as [|F Fs IH]; [reflexivity|].
  cbn [features_of fold_right]. fold (features_of Fs).
  rewrite Z.land_lor_distr_l, IH.
  f_equal. destruct F; reflexivity.
Qed.

Section FeatureFacts.
Context {board : Type}.
Implicit Types (p q : sbi_platform board) (F : sbi_platform_feature).

Lemma feature_query_non_null F p :
  feature_query F (Some p) = Some (Z.land (features p) (feature_flag F)).
Proof. destruct F; reflexivity. Qed.

Lemma feature_query_null F :
  feature_query F (@None (sbi_platform board)) = None.
Proof. destruct F; reflexivity. Qed.

Lemma feature_query_reads_bit F p :
  exists v,
    feature_query F (Some p) = Some v /\
    truthy v = Z.testbit (features p) (feature_bit F).
Proof.
  eexists. split; [apply feature_query_non_null|].
  rewrite feature_flag_pow2. apply truthy_land_pow2, feature_bit_range.
Qed.

(** The queries taken together return the six defined bits of
    [features]. *)
Lemma read_back_features_defined_bits p :
  read_back_features (Some p) = Some (Z.land (features p) 63).
Proof.
  unfold read_back_features, all_features.
  cbn [collect_features]. rewrite !feature_query_non_null.
  rewrite !feature_flag_pow2, !truthy_land_pow2 by apply feature_bit_range.
  f_equal. apply Z.bits_inj'. intros n Hn.
  rewrite !Z.lor_spec, !testbit_flag_or_zero by apply feature_bit_range.
  rewrite Z.land_spec, Z.bits_0.
  change 63 with (Z.ones 6). rewrite Z.testbit_ones_nonneg by lia.
  cbn [feature_bit].
  destruct (Z.eqb_spec 0 n) as [<-|?]; [case_bits|].
  destruct (Z.eqb_spec 1 n) as [<-|?]; [case_bits|].
  destruct (Z.eqb_spec 2 n) as [<-|?]; [case_bits|].
  destruct (Z.eqb_spec 3 n) as [<-|?]; [case_bits|].
  destruct (Z.eqb_spec 4 n) as [<-|?]; [case_bits|].
  destruct (Z.eqb_spec 5 n) as [<-|?]; [case_bits|].
  destruct (Z.ltb_spec n 6); [lia|].
  case_bits.
Qed.

End FeatureFacts.

(** The mask built from a list of features has exactly the bits of the
    features of the list. *)
Lemma features_of_testbit (Fs : list sbi_platform_feature)
      (G : sbi_platform_feature) :
  Z.testbit (features_of Fs) (feature_bit G) = true <-> In G Fs.
Proof.
  induction Fs as [|F Fs IH].
  - cbn. rewrite Z.bits_0. split; [discriminate|tauto].
  - cbn [features_of fold_right In]. fold (features_of Fs).
    rewrite Z.lor_spec, orb_true_iff, IH, feature_flag_pow2.
    rewrite Z.pow2_bits_eqb by apply feature_bit_range.
    rewrite Z.eqb_eq.
    assert (Hinj : feature_bit F = feature_bit G <-> F = G).
    { split; [|intros ->; reflexivity].
      destruct F, G; cbn; intros H; (reflexivity || discriminate H). }
    rewrite Hinj. reflexivity.
Qed.

(** C3, as the code has it.  A feature query on a descriptor that is
    present is total and pure: it yields [features & FLAG], a function of
    the descriptor alone.  The query macros dereference their argument
    with no test, so on a null descriptor the query has no defined
    result; it does not default to "not supported". *)
Theorem feature_query_total_on_non_null (board : Type)
        (F : sbi_platform_feature) :
  (forall p : sbi_platform board,
      feature_query F (Some p) = Some (Z.land (features p) (feature_flag F))) /\
  feature_query F (@None (sbi_platform board)) = None.
Proof.
  split.
  - intros p. apply feature_query_non_null.
  - apply feature_query_null.
Qed.

(** C3 as stated fails: on a null descriptor the PMP query does not
    report "not supported", hence not every feature query does. *)
Lemma feature_query_null_not_false :
  ~ (forall F : sbi_platform_feature,
        exists v, feature_query F (@None (sbi_platform unit)) = Some v /\
                  truthy v = false).
Proof.
  intros H. destruct (H HAS_PMP) as (v & Hv & _). discriminate Hv.
Qed.

(** C6.  On every descriptor and for each of the six features, the query
    is true exactly when the bit of the feature is set in [features]; the
    answer depends on [features] alone, not on the rest of the descriptor
    (in particular not on the operation table); and a descriptor built
    with any combination of features reads back, through the six queries,
    as the same mask. *)
Theorem feature_query_consistent (board : Type) (p : sbi_platform board)
        (F : sbi_platform_feature) :
  (exists v,
      feature_query F (Some p) = Some v /\
      (truthy v = true <-> Z.testbit (features p) (feature_bit F) = true)) /\
  (forall q : sbi_platform board,
      features q = features p ->
      feature_query F (Some q) = feature_query F (Some p)) /\
  (forall Fs : list sbi_platform_feature,
      read_back_features (Some (with_features p (features_of Fs)))
      = Some (features_of Fs)) /\
  read_back_features (Some p) = Some (Z.land (features p) 63).
Proof.
  split; [|split; [|split]].
  - destruct (feature_query_reads_bit F p) as (v & Hv & Hbit).
    exists v. split; [exact Hv|]. rewrite Hbit. reflexivity.
  - intros q Hq. rewrite !feature_query_non_null, Hq. reflexivity.
  - intros Fs. rewrite read_back_features_defined_bits.
    cbn [with_features features]. rewrite features_of_defined_bits.
    reflexivity.
  - apply read_back_features_defined_bits.
Qed.

(** C6 at a concrete input: the recording board, whose operation table is
    fully populated, and a descriptor with the same features and an empty
    operation table answer the PMP query alike. *)
Lemma feature_query_consistent_witness :
  feature_query HAS_PMP
    (Some (bare_platform (board := list Z) "bare"
             SBI_PLATFORM_DEFAULT_FEATURES 1 4096 0))
  = feature_query HAS_PMP (Some recording_platform).
Proof.
  apply (proj1 (proj2
           (feature_query_consistent (list Z) recording_platform HAS_PMP))).
  reflexivity.
Defined.

(** ** Dispatch *)

Ltac unfold_accessors :=
  unfold sbi_platform_early_init, sbi_platform_final_init,
    sbi_platform_pmp_region_count, sbi_platform_pmp_region_info,
    sbi_platform_console_putc, sbi_platform_console_getc,
    sbi_platform_console_init, sbi_platform_irqchip_init,
    sbi_platform_ipi_inject, sbi_platform_ipi_sync, sbi_platform_ipi_clear,
    sbi_platform_ipi_init, sbi_platform_timer_value,
    sbi_platform_timer_event_start, sbi_platform_timer_event_stop,
    sbi_platform_timer_init, sbi_platform_system_reboot,
    sbi_platform_system_shutdown.

(** Closes a goal about an accessor once the state of its entry point is
    among the hypotheses. *)
Ltac by_entry :=
  intros; unfold_accessors;
  match goal with
  | H : _ = None |- _ => rewrite H; reflexivity
  | H : _ = Some _ |- _ => rewrite H; reflexivity
  end.

Section DispatchFacts.
Context {board : Type}.
Implicit Types (p : sbi_platform board) (m : machine board).

(** The PMP query with no entry point to call returns 0 and leaves the
    machine as it found it. *)
Lemma pmp_region_info_default (plat : option (sbi_platform board))
      (hartid index prot addr log2size : Z) m :
  (forall p, plat = Some p -> pmp_region_info p = None) ->
  sbi_platform_pmp_region_info plat hartid index prot addr log2size m
  = Some (0, m).
Proof.
  intros Habsent. destruct plat as [p|]; [|reflexivity].
  unfold sbi_platform_pmp_region_info.
  rewrite (Habsent p eq_refl). reflexivity.
Qed.

End DispatchFacts.

(** C2, as the code has it.  On a descriptor with no [pmp_region_info]
    entry point the accessor returns 0 (success) for every HART and index
    and writes none of its outputs: after the call [*prot], [*addr] and
    [*log2size] hold what they held before it (they are zero after the
    call when they were zero before it). *)
Theorem pmp_region_info_absent_keeps_outputs (board : Type)
        (p : sbi_platform board) (hartid index prot addr log2size : Z)
        (m : machine board) :
  pmp_region_info p = None ->
  exists m',
    sbi_platform_pmp_region_info (Some p) hartid index prot addr log2size m
    = Some (0, m') /\
    load m' prot = load m prot /\
    load m' addr = load m addr /\
    load m' log2size = load m log2size.
Proof.
  intros Habsent. exists m. split; [|auto].
  apply pmp_region_info_default. intros q [= <-]. exact Habsent.
Qed.

Lemma pmp_region_info_absent_keeps_outputs_witness :
  exists m',
    sbi_platform_pmp_region_info (Some (@quad_platform unit))
      0 0 4096 4104 4112 (sample_machine tt)
    = Some (0, m') /\
    load m' 4096 = load (sample_machine tt) 4096 /\
    load m' 4104 = load (sample_machine tt) 4104 /\
    load m' 4112 = load (sample_machine tt) 4112.
Proof.
  apply (pmp_region_info_absent_keeps_outputs unit quad_platform).
  reflexivity.
Defined.

(** C2 as stated fails: with no [pmp_region_info] entry point and outputs
    that hold 7, 8 and 9 before the call, the call returns 0 and the
    outputs are not all zero afterwards. *)
Lemma pmp_region_info_absent_outputs_not_zeroed :
  ~ (exists m',
        sbi_platform_pmp_region_info (Some (@quad_platform unit))
          0 0 4096 4104 4112 (sample_machine tt)
        = Some (0, m') /\
        load m' 4096 = Some 0 /\
        load m' 4104 = Some 0 /\
        load m' 4112 = Some 0).
Proof.
  intros (m' & Hrun & Hprot & _).
  cbn in Hrun. injection Hrun as <-.
  vm_compute in Hprot. discriminate Hprot.
Qed.

(** C9.  When there is no [pmp_region_info] entry point to call (the
    descriptor is null, or its entry point is), the accessor returns 0
    and writes through none of [prot], [addr] and [log2size]: no memory
    cell changes, so each output holds after the call the value it held
    before. *)
Theorem pmp_region_info_default_writes_nothing (board : Type)
        (plat : option (sbi_platform board))
        (hartid index prot addr log2size : Z) (m : machine board) :
  (forall p, plat = Some p -> pmp_region_info p = None) ->
  exists m',
    sbi_platform_pmp_region_info plat hartid index prot addr log2size m
    = Some (0, m') /\
    ram m' = ram m /\
    hw m' = hw m /\
    load m' prot = load m prot /\
    load m' addr = load m addr /\
    load m' log2size = load m log2size.
Proof.
  intros Habsent. exists m. split; [|auto 6].
  apply pmp_region_info_default, Habsent.
Qed.

Lemma pmp_region_info_default_writes_nothing_witness :
  exists m',
    sbi_platform_pmp_region_info (@None (sbi_platform unit))
      1 2 4096 4104 4112 (sample_machine tt)
    = Some (0, m') /\
    ram m' = ram (sample_machine tt) /\
    hw m' = hw (sample_machine tt) /\
    load m' 4096 = load (sample_machine tt) 4096 /\
    load m' 4104 = load (sample_machine tt) 4104 /\
    load m' 4112 = load (sample_machine tt) 4112.
Proof.
  apply (pmp_region_info_default_writes_nothing unit None).
  intros p Hp. discriminate Hp.
Defined.

Section DispatchClaims.
Context {board : Type}.
Implicit Types (p : sbi_platform board) (m : machine board).
Local Abbreviation NULL := (@None (sbi_platform board)).

(** C4.  Called with a null descriptor, every accessor returns its
    default without reading any member: [sbi_platform_name] returns the
    null name; [sbi_platform_hart_disabled] returns false;
    [sbi_platform_hart_count] and [sbi_platform_hart_stack_size] return 0;
    [console_getc], [timer_value] and [pmp_region_count] return 0; every
    operation that returns a result returns 0 (success); every [void]
    operation returns at once.  In each case the machine is left as it
    was. *)
Theorem null_descriptor_defaults (shl_oob : Z -> Z -> Z) m :
  sbi_platform_name NULL = None /\
  (forall hartid, sbi_platform_hart_disabled shl_oob NULL hartid = false) /\
  sbi_platform_hart_count NULL = 0 /\
  sbi_platform_hart_stack_size NULL = 0 /\
  (forall hartid cold_boot,
      sbi_platform_early_init NULL hartid cold_boot m = Some (0, m)) /\
  (forall hartid cold_boot,
      sbi_platform_final_init NULL hartid cold_boot m = Some (0, m)) /\
  (forall hartid,
      sbi_platform_pmp_region_count NULL hartid m = Some (0, m)) /\
  (forall hartid index prot addr log2size,
      sbi_platform_pmp_region_info NULL hartid index prot addr log2size m
      = Some (0, m)) /\
  (forall ch, sbi_platform_console_putc NULL ch m = Some (tt, m)) /\
  sbi_platform_console_getc NULL m = Some (0, m) /\
  sbi_platform_console_init NULL m = Some (0, m) /\
  (forall hartid cold_boot,
      sbi_platform_irqchip_init NULL hartid cold_boot m = Some (0, m)) /\
  (forall target_hart source_hart,
      sbi_platform_ipi_inject NULL target_hart source_hart m = Some (tt, m)) /\
  (forall target_hart source_hart,
      sbi_platform_ipi_sync NULL target_hart source_hart m = Some (tt, m)) /\
  (forall target_hart,
      sbi_platform_ipi_clear NULL target_hart m = Some (tt, m)) /\
  (forall hartid cold_boot,
      sbi_platform_ipi_init NULL hartid cold_boot m = Some (0, m)) /\
  sbi_platform_timer_value NULL m = Some (0, m) /\
  (forall target_hart next_event,
      sbi_platform_timer_event_start NULL target_hart next_event m
      = Some (tt, m)) /\
  (forall target_hart,
      sbi_platform_timer_event_stop NULL target_hart m = Some (tt, m)) /\
  (forall hartid cold_boot,
      sbi_platform_timer_init NULL hartid cold_boot m = Some (0, m)) /\
  (forall type, sbi_platform_system_reboot NULL type m = Some (0, m)) /\
  (forall type, sbi_platform_system_shutdown NULL type m = Some (0, m)).
Proof.
  repeat split; intros; reflexivity.
Qed.

(** C5.  On a descriptor that is present, an operation whose entry point
    is null returns its neutral default at once and leaves the machine as
    it was, whatever the other entry points are (none of them is called):
    0 (success) for the operations that return a result, the zero
    character for [console_getc], 0 for [timer_value] and
    [pmp_region_count], and a plain return for [console_putc],
    [ipi_inject], [ipi_sync], [ipi_clear], [timer_event_start] and
    [timer_event_stop]; [system_reboot] and [system_shutdown] return 0
    with no effect. *)
Theorem absent_entry_point_defaults p m :
  (early_init p = None ->
   forall hartid cold_boot,
     sbi_platform_early_init (Some p) hartid cold_boot m = Some (0, m)) /\
  (final_init p = None ->
   forall hartid cold_boot,
     sbi_platform_final_init (Some p) hartid cold_boot m = Some (0, m)) /\
  (pmp_region_count p = None ->
   forall hartid,
     sbi_platform_pmp_region_count (Some p) hartid m = Some (0, m)) /\
  (pmp_region_info p = None ->
   forall hartid index prot addr log2size,
     sbi_platform_pmp_region_info (Some p) hartid index prot addr log2size m
     = Some (0, m)) /\
  (console_putc p = None ->
   forall ch, sbi_platform_console_putc (Some p) ch m = Some (tt, m)) /\
  (console_getc p = None ->
   sbi_platform_console_getc (Some p) m = Some (0, m)) /\
  (console_init p = None ->
   sbi_platform_console_init (Some p) m = Some (0, m)) /\
  (irqchip_init p = None ->
   forall hartid cold_boot,
     sbi_platform_irqchip_init (Some p) hartid cold_boot m = Some (0, m)) /\
  (ipi_inject p = None ->
   forall target_hart source_hart,
     sbi_platform_ipi_inject (Some p) target_hart source_hart m
     = Some (tt, m)) /\
  (ipi_sync p = None ->
   forall target_hart source_hart,
     sbi_platform_ipi_sync (Some p) target_hart source_hart m
     = Some (tt, m)) /\
  (ipi_clear p = None ->
   forall target_hart,
     sbi_platform_ipi_clear (Some p) target_hart m = Some (tt, m)) /\
  (ipi_init p = None ->
   forall hartid cold_boot,
     sbi_platform_ipi_init (Some p) hartid cold_boot m = Some (0, m)) /\
  (timer_value p = None ->
   sbi_platform_timer_value (Some p) m = Some (0, m)) /\
  (timer_event_start p = None ->
   forall target_hart next_event,
     sbi_platform_timer_event_start (Some p) target_hart next_event m
     = Some (tt, m)) /\
  (timer_event_stop p = None ->
   forall target_hart,
     sbi_platform_timer_event_stop (Some p) target_hart m = Some (tt, m)) /\
  (timer_init p = None ->
   forall hartid cold_boot,
     sbi_platform_timer_init (Some p) hartid cold_boot m = Some (0, m)) /\
  (system_reboot p = None ->
   forall type, sbi_platform_system_reboot (Some p) type m = Some (0, m)) /\
  (system_shutdown p = None ->
   forall type, sbi_platform_system_shutdown (Some p) type m = Some (0, m)).
Proof.
  repeat split; by_entry.
Qed.

(** C7.  On a descriptor that is present, an operation that returns a
    result and whose entry point is populated behaves exactly as the
    entry point applied to the same arguments: same returned value, same
    final machine, and no return when the entry point does not return. *)
Theorem populated_entry_point_passes_through p m :
  (forall f, early_init p = Some f ->
   forall hartid cold_boot,
     sbi_platform_early_init (Some p) hartid cold_boot m
     = f hartid cold_boot m) /\
  (forall f, final_init p = Some f ->
   forall hartid cold_boot,
     sbi_platform_final_init (Some p) hartid cold_boot m
     = f hartid cold_boot m) /\
  (forall f, console_init p = Some f ->
   sbi_platform_console_init (Some p) m = f m) /\
  (forall f, irqchip_init p = Some f ->
   forall hartid cold_boot,
     sbi_platform_irqchip_init (Some p) hartid cold_boot m
     = f hartid cold_boot m) /\
  (forall f, ipi_init p = Some f ->
   forall hartid cold_boot,
     sbi_platform_ipi_init (Some p) hartid cold_boot m
     = f hartid cold_boot m) /\
  (forall f, timer_init p = Some f ->
   forall hartid cold_boot,
     sbi_platform_timer_init (Some p) hartid cold_boot m
     = f hartid cold_boot m) /\
  (forall f, pmp_region_info p = Some f ->
   forall hartid index prot addr log2size,
     sbi_platform_pmp_region_info (Some p) hartid index prot addr log2size m
     = f hartid index prot addr log2size m) /\
  (forall f, system_reboot p = Some f ->
   forall type, sbi_platform_system_reboot (Some p) type m = f type m) /\
  (forall f, system_shutdown p = Some f ->
   forall type, sbi_platform_system_shutdown (Some p) type m = f type m).
Proof.
  repeat split; by_entry.
Qed.

End DispatchClaims.

(** C5 at a concrete input: [ipi_sync(target_hart=1, source_hart=0)] on
    the recording board without its [ipi_sync] entry point returns at
    once, and the board has recorded no call. *)
Lemma absent_entry_point_defaults_witness :
  sbi_platform_ipi_sync (Some recording_platform_partial) 1 0
    (sample_machine [])
  = Some (tt, sample_machine []).
Proof.
  destruct (absent_entry_point_defaults
              recording_platform_partial (sample_machine []))
    as (_ & _ & _ & _ & _ & _ & _ & _ & _ & Hsync & _).
  apply Hsync. reflexivity.
Defined.

(** C7 at a concrete input: the recording board reports the failure code
    -1 from [early_init]; the accessor returns it as it is, together with
    the machine that the entry point left. *)
Lemma populated_entry_point_passes_through_witness :
  sbi_platform_early_init (Some recording_platform) 0 true (sample_machine [])
  = Some (-1, record_call 1 (sample_machine [])).
Proof.
  destruct (populated_entry_point_passes_through
              recording_platform (sample_machine []))
    as (Hearly & _).
  apply (Hearly (fun _ _ m => Some (-1, record_call 1 m))). reflexivity.
Defined.

(** ** The accessors on the recording board *)

(** A populated [void] entry point is called with the arguments of the
    accessor. *)
Example recording_console_putc :
  sbi_platform_console_putc (Some recording_platform) 65 (sample_machine [])
  = Some (tt, record_call 5 (sample_machine [])).
Proof. reflexivity. Qed.

(** A populated [ipi_sync] that never returns keeps the accessor from
    returning. *)
Example recording_ipi_sync_blocks :
  sbi_platform_ipi_sync (Some recording_platform) 1 0 (sample_machine [])
  = None.
Proof. reflexivity. Qed.

(** With no [system_reboot] entry point the accessor reports success and
    the board records no call. *)
Example partial_system_reboot :
  sbi_platform_system_reboot (Some recording_platform_partial) 0
    (sample_machine [])
  = Some (0, sample_machine []).
Proof. reflexivity. Qed.

(** A populated [pmp_region_info] writes the outputs; its absence leaves
    them alone. *)
Example recording_pmp_region_info_writes :
  match sbi_platform_pmp_region_info (Some recording_platform)
          0 0 4096 4104 4112 (sample_machine []) with
  | Some (r, m') =>
      r = -4 /\ load m' 4096 = Some 7 /\ load m' 4104 = Some 4096 /\
      load m' 4112 = Some 12
  | None => False
  end.
Proof. vm_compute. repeat split. Qed.

(** With the shift of RISC-V, asking about HART 32 reads bit 0 of the
    mask. *)
Example hart_32_reads_bit_0 :
  sbi_platform_hart_disabled shl_riscv
    (Some (with_disabled_hart_mask (@wide_platform unit) 1)) 32 = true /\
  Z.testbit 1 32 = false.
Proof. split; reflexivity. Qed.

(** * Further properties of the accessors *)

(** ** The disabled-HART test, where it is exact *)

(** X1.  For a HART below 31 the test answers true exactly when the bit
    of that HART is set in [disabled_hart_mask], whatever the other bits
    of the mask are; [hart_count] plays no part in the answer. *)
Theorem hart_disabled_exact_below_31 (board : Type) (shl_oob : Z -> Z -> Z)
        (p : sbi_platform board) (hartid : Z) :
  0 <= hartid < 31 ->
  (sbi_platform_hart_disabled shl_oob (Some p) hartid = true <->
   Z.testbit (disabled_hart_mask p) hartid = true).
Proof.
  intros H. rewrite hart_disabled_below_31 by assumption. reflexivity.
Qed.

Lemma hart_disabled_exact_below_31_witness :
  sbi_platform_hart_disabled shl_riscv (Some (@quad_platform unit)) 2 = true <->
  Z.testbit (disabled_hart_mask (@quad_platform unit)) 2 = true.
Proof.
  apply (hart_disabled_exact_below_31 unit shl_riscv quad_platform 2). lia.
Defined.

(** X2.  When no bit above bit 31 is set in [disabled_hart_mask] (a board
    of at most 32 HARTs), the test is exact for every HART in [0, 32),
    HART 31 included. *)
Theorem hart_disabled_exact_on_32_bit_mask (board : Type)
        (shl_oob : Z -> Z -> Z) (p : sbi_platform board) (hartid : Z) :
  0 <= disabled_hart_mask p < 2 ^ 32 ->
  0 <= hartid < 32 ->
  sbi_platform_hart_disabled shl_oob (Some p) hartid
  = Z.testbit (disabled_hart_mask p) hartid.
Proof.
  intros Hmask Hh.
  destruct (Z.eq_dec hartid 31) as [->|Hne].
  - destruct (Z.testbit (disabled_hart_mask p) 31) eqn:Hbit.
    + apply hart_disabled_at_31. exists 31. split; [lia|exact Hbit].
    + apply not_true_is_false. intros Htrue.
      apply hart_disabled_at_31 in Htrue as (i & Hi & Hset).
      destruct (Z.eq_dec i 31) as [->|Hi31]; [congruence|].
      assert (Hhigh : Z.testbit (disabled_hart_mask p) i = false).
      { rewrite <- (Z.mod_small (disabled_hart_mask p) (2 ^ 32)) by assumption.
        apply Z.mod_pow2_bits_high. lia. }
      congruence.
  - apply hart_disabled_below_31. lia.
Qed.

Lemma hart_disabled_exact_on_32_bit_mask_witness :
  sbi_platform_hart_disabled shl_riscv
    (Some (with_disabled_hart_mask (@quad_platform unit) (2 ^ 31))) 31
  = Z.testbit
      (disabled_hart_mask (with_disabled_hart_mask (@quad_platform unit) (2 ^ 31)))
      31.
Proof.
  apply (hart_disabled_exact_on_32_bit_mask unit shl_riscv
           (with_disabled_hart_mask quad_platform (2 ^ 31)) 31).
  - cbn. lia.
  - lia.
Defined.

(** X3.  With an empty [disabled_hart_mask] no HART is reported disabled:
    the test answers false for every HART identity, in range or not, and
    whatever an out-of-range shift yields. *)
Theorem hart_disabled_empty_mask (board : Type) (shl_oob : Z -> Z -> Z)
        (p : sbi_platform board) (hartid : Z) :
  disabled_hart_mask p = 0 ->
  sbi_platform_hart_disabled shl_oob (Some p) hartid = false.
Proof.
  intros Hmask. rewrite hart_disabled_unfold, Hmask, Z.land_0_l.
  reflexivity.
Qed.

Lemma hart_disabled_empty_mask_witness :
  sbi_platform_hart_disabled shl_riscv
    (Some (bare_platform (board := unit) "none" 0 64 8192 0)) 63 = false.
Proof.
  apply (hart_disabled_empty_mask unit shl_riscv
           (bare_platform "none" 0 64 8192 0) 63).
  reflexivity.
Defined.

(** ** Feature queries: value and membership *)

Lemma land_pow2_value (a k : Z) :
  0 <= k -> Z.land a (2 ^ k) = if Z.testbit a k then 2 ^ k else 0.
Proof.
  intros Hk. apply Z.bits_inj'. intros n Hn.
  rewrite Z.land_spec, testbit_flag_or_zero, Z.pow2_bits_eqb by assumption.
  destruct (Z.eqb_spec k n) as [->|_].
  - destruct (Z.testbit a n); reflexivity.
  - rewrite !andb_false_r. reflexivity.
Qed.

(** X4.  A feature query does not yield a normalised truth value: on a
    present descriptor it yields the flag of the feature itself (1, 2, 4,
    8, 16 or 32) when the bit is set in [features], and 0 otherwise. *)
Theorem feature_query_value (board : Type) (p : sbi_platform board)
        (F : sbi_platform_feature) :
  feature_query F (Some p)
  = Some (if Z.testbit (features p) (feature_bit F)
          then feature_flag F else 0) /\
  feature_flag F = Z.shiftl 1 (feature_bit F) /\
  1 <= feature_flag F <= 32.
Proof.
  split; [|split].
  - rewrite feature_query_non_null, feature_flag_pow2.
    f_equal. apply land_pow2_value, feature_bit_range.
  - destruct F; reflexivity.
  - destruct F; split; apply Z.leb_le; reflexivity.
Qed.

(** X5.  On a descriptor whose [features] is the or of the flags of a
    list of features, the query of a feature is true exactly when the
    feature is in the list: the six flags are independent bits. *)
Theorem feature_query_membership (board : Type) (p : sbi_platform board)
        (Fs : list sbi_platform_feature) (F : sbi_platform_feature) :
  exists v,
    feature_query F (Some (with_features p (features_of Fs))) = Some v /\
    (truthy v = true <-> In F Fs).
Proof.
  destruct (feature_query_reads_bit F (with_features p (features_of Fs)))
    as (v & Hv & Hbit).
  exists v. split; [exact Hv|].
  rewrite Hbit. cbn [with_features features]. apply features_of_testbit.
Qed.

(** X6.  On a descriptor with the default feature set
    ([SBI_PLATFORM_DEFAULT_FEATURES]) every feature query is true except
    the one for HART hotplug. *)
Theorem default_features_all_but_hotplug (board : Type)
        (p : sbi_platform board) (F : sbi_platform_feature) :
  features p = SBI_PLATFORM_DEFAULT_FEATURES ->
  exists v,
    feature_query F (Some p) = Some v /\
    (truthy v = true <-> F <> HAS_HART_HOTPLUG).
Proof.
  intros Hdef.
  destruct (feature_query_reads_bit F p) as (v & Hv & Hbit).
  exists v. split; [exact Hv|].
  rewrite Hbit, Hdef.
  destruct F; split; intros H;
    first [ discriminate
          | reflexivity
          | vm_compute in H; discriminate H
          | congruence ].
Qed.

Lemma default_features_all_but_hotplug_witness :
  exists v,
    feature_query HAS_PMP (Some recording_platform) = Some v /\
    (truthy v = true <-> HAS_PMP <> HAS_HART_HOTPLUG).
Proof.
  apply (default_features_all_but_hotplug (list Z) recording_platform HAS_PMP).
  reflexivity.
Defined.

(** ** Dispatch: the remaining operations, and what dispatch never does *)

(** Closes a goal that relates an accessor on two descriptors with the
    same entry point. *)
Ltac by_same_entry :=
  intros; unfold_accessors;
  match goal with
  | H : _ = _ |- _ => rewrite H; reflexivity
  end.

(** Closes a goal that traces a call with no return back to the entry
    point. *)
Ltac by_blocking_entry :=
  intros;
  match goal with
  | H : _ = None |- _ => revert H
  end;
  unfold_accessors; unfold ret;
  match goal with
  | |- match ?plat with _ => _ end _ = None -> _ =>
      destruct plat; [|discriminate]
  end;
  match goal with
  | |- match ?entry with _ => _ end _ = None -> _ =>
      destruct entry eqn:?; [|discriminate]
  end;
  intros; eauto.

Section DispatchMore.
Context {board : Type}.
Implicit Types (p q : sbi_platform board) (m : machine board).
Implicit Types (plat : option (sbi_platform board)).

(** X7.  On a descriptor that is present, an operation that returns a
    value other than a status, or no value, and whose entry point is
    populated behaves exactly as the entry point applied to the same
    arguments in the same order: [pmp_region_count], [console_getc],
    [timer_value], [console_putc], [ipi_inject], [ipi_sync], [ipi_clear],
    [timer_event_start] and [timer_event_stop]. *)
Theorem populated_entry_point_passes_through_rest p m :
  (forall f, pmp_region_count p = Some f ->
   forall hartid,
     sbi_platform_pmp_region_count (Some p) hartid m = f hartid m) /\
  (forall f, console_getc p = Some f ->
   sbi_platform_console_getc (Some p) m = f m) /\
  (forall f, timer_value p = Some f ->
   sbi_platform_timer_value (Some p) m = f m) /\
  (forall f, console_putc p = Some f ->
   forall ch, sbi_platform_console_putc (Some p) ch m = f ch m) /\
  (forall f, ipi_inject p = Some f ->
   forall target_hart source_hart,
     sbi_platform_ipi_inject (Some p) target_hart source_hart m
     = f target_hart source_hart m) /\
  (forall f, ipi_sync p = Some f ->
   forall target_hart source_hart,
     sbi_platform_ipi_sync (Some p) target_hart source_hart m
     = f target_hart source_hart m) /\
  (forall f, ipi_clear p = Some f ->
   forall target_hart,
     sbi_platform_ipi_clear (Some p) target_hart m = f target_hart m) /\
  (forall f, timer_event_start p = Some f ->
   forall target_hart next_event,
     sbi_platform_timer_event_start (Some p) target_hart next_event m
     = f target_hart next_event m) /\
  (forall f, timer_event_stop p = Some f ->
   forall target_hart,
     sbi_platform_timer_event_stop (Some p) target_hart m
     = f target_hart m).
Proof.
  repeat split; by_entry.
Qed.

(** X8.  An operation accessor reads nothing of the descriptor but its own
    entry point: two descriptors with the same entry point for an
    operation behave alike on it, whatever their names, feature bits,
    HART members and other entry points are.  In particular dispatch is
    not gated by the feature bits. *)
Theorem dispatch_reads_own_entry_point_only p q m :
  (early_init p = early_init q ->
   forall hartid cold_boot,
     sbi_platform_early_init (Some p) hartid cold_boot m
     = sbi_platform_early_init (Some q) hartid cold_boot m) /\
  (final_init p = final_init q ->
   forall hartid cold_boot,
     sbi_platform_final_init (Some p) hartid cold_boot m
     = sbi_platform_final_init (Some q) hartid cold_boot m) /\
  (pmp_region_count p = pmp_region_count q ->
   forall hartid,
     sbi_platform_pmp_region_count (Some p) hartid m
     = sbi_platform_pmp_region_count (Some q) hartid m) /\
  (pmp_region_info p = pmp_region_info q ->
   forall hartid index prot addr log2size,
     sbi_platform_pmp_region_info (Some p) hartid index prot addr log2size m
     = sbi_platform_pmp_region_info (Some q) hartid index prot addr
         log2size m) /\
  (console_putc p = console_putc q ->
   forall ch,
     sbi_platform_console_putc (Some p) ch m
     = sbi_platform_console_putc (Some q) ch m) /\
  (console_getc p = console_getc q ->
   sbi_platform_console_getc (Some p) m
   = sbi_platform_console_getc (Some q) m) /\
  (console_init p = console_init q ->
   sbi_platform_console_init (Some p) m
   = sbi_platform_console_init (Some q) m) /\
  (irqchip_init p = irqchip_init q ->
   forall hartid cold_boot,
     sbi_platform_irqchip_init (Some p) hartid cold_boot m
     = sbi_platform_irqchip_init (Some q) hartid cold_boot m) /\
  (ipi_inject p = ipi_inject q ->
   forall target_hart source_hart,
     sbi_platform_ipi_inject (Some p) target_hart source_hart m
     = sbi_platform_ipi_inject (Some q) target_hart source_hart m) /\
  (ipi_sync p = ipi_sync q ->
   forall target_hart source_hart,
     sbi_platform_ipi_sync (Some p) target_hart source_hart m
     = sbi_platform_ipi_sync (Some q) target_hart source_hart m) /\
  (ipi_clear p = ipi_clear q ->
   forall target_hart,
     sbi_platform_ipi_clear (Some p) target_hart m
     = sbi_platform_ipi_clear (Some q) target_hart m) /\
  (ipi_init p = ipi_init q ->
   forall hartid cold_boot,
     sbi_platform_ipi_init (Some p) hartid cold_boot m
     = sbi_platform_ipi_init (Some q) hartid cold_boot m) /\
  (timer_value p = timer_value q ->
   sbi_platform_timer_value (Some p) m
   = sbi_platform_timer_value (Some q) m) /\
  (timer_event_start p = timer_event_start q ->
   forall target_hart next_event,
     sbi_platform_timer_event_start (Some p) target_hart next_event m
     = sbi_platform_timer_event_start (Some q) target_hart next_event m) /\
  (timer_event_stop p = timer_event_stop q ->
   forall target_hart,
     sbi_platform_timer_event_stop (Some p) target_hart m
     = sbi_platform_timer_event_stop (Some q) target_hart m) /\
  (timer_init p = timer_init q ->
   forall hartid cold_boot,
     sbi_platform_timer_init (Some p) hartid cold_boot m
     = sbi_platform_timer_init (Some q) hartid cold_boot m) /\
  (system_reboot p = system_reboot q ->
   forall type,
     sbi_platform_system_reboot (Some p) type m
     = sbi_platform_system_reboot (Some q) type m) /\
  (system_shutdown p = system_shutdown q ->
   forall type,
     sbi_platform_system_shutdown (Some p) type m
     = sbi_platform_system_shutdown (Some q) type m).
Proof.
  repeat split; by_same_entry.
Qed.

(** X9.  The dispatch layer never keeps a call from returning by itself:
    when an accessor does not return, the descriptor is present, the
    entry point of the operation is populated, and it is the entry point
    that does not return on those arguments. *)
Theorem no_return_comes_from_entry_point plat m :
  (forall hartid cold_boot,
     sbi_platform_early_init plat hartid cold_boot m = None ->
     exists p f, plat = Some p /\ early_init p = Some f /\
                 f hartid cold_boot m = None) /\
  (forall hartid cold_boot,
     sbi_platform_final_init plat hartid cold_boot m = None ->
     exists p f, plat = Some p /\ final_init p = Some f /\
                 f hartid cold_boot m = None) /\
  (forall hartid,
     sbi_platform_pmp_region_count plat hartid m = None ->
     exists p f, plat = Some p /\ pmp_region_count p = Some f /\
                 f hartid m = None) /\
  (forall hartid index prot addr log2size,
     sbi_platform_pmp_region_info plat hartid index prot addr log2size m
     = None ->
     exists p f, plat = Some p /\ pmp_region_info p = Some f /\
                 f hartid index prot addr log2size m = None) /\
  (forall ch,
     sbi_platform_console_putc plat ch m = None ->
     exists p f, plat = Some p /\ console_putc p = Some f /\
                 f ch m = None) /\
  (sbi_platform_console_getc plat m = None ->
   exists p f, plat = Some p /\ console_getc p = Some f /\ f m = None) /\
  (sbi_platform_console_init plat m = None ->
   exists p f, plat = Some p /\ console_init p = Some f /\ f m = None) /\
  (forall hartid cold_boot,
     sbi_platform_irqchip_init plat hartid cold_boot m = None ->
     exists p f, plat = Some p /\ irqchip_init p = Some f /\
                 f hartid cold_boot m = None) /\
  (forall target_hart source_hart,
     sbi_platform_ipi_inject plat target_hart source_hart m = None ->
     exists p f, plat = Some p /\ ipi_inject p = Some f /\
                 f target_hart source_hart m = None) /\
  (forall target_hart source_hart,
     sbi_platform_ipi_sync plat target_hart source_hart m = None ->
     exists p f, plat = Some p /\ ipi_sync p = Some f /\
                 f target_hart source_hart m = None) /\
  (forall target_hart,
     sbi_platform_ipi_clear plat target_hart m = None ->
     exists p f, plat = Some p /\ ipi_clear p = Some f /\
                 f target_hart m = None) /\
  (forall hartid cold_boot,
     sbi_platform_ipi_init plat hartid cold_boot m = None ->
     exists p f, plat = Some p /\ ipi_init p = Some f /\
                 f hartid cold_boot m = None) /\
  (sbi_platform_timer_value plat m = None ->
   exists p f, plat = Some p /\ timer_value p = Some f /\ f m = None) /\
  (forall target_hart next_event,
     sbi_platform_timer_event_start plat target_hart next_event m = None ->
     exists p f, plat = Some p /\ timer_event_start p = Some f /\
                 f target_hart next_event m = None) /\
  (forall target_hart,
     sbi_platform_timer_event_stop plat target_hart m = None ->
     exists p f, plat = Some p /\ timer_event_stop p = Some f /\
                 f target_hart m = None) /\
  (forall hartid cold_boot,
     sbi_platform_timer_init plat hartid cold_boot m = None ->
     exists p f, plat = Some p /\ timer_init p = Some f /\
                 f hartid cold_boot m = None) /\
  (forall type,
     sbi_platform_system_reboot plat type m = None ->
     exists p f, plat = Some p /\ system_reboot p = Some f /\
                 f type m = None) /\
  (forall type,
     sbi_platform_system_shutdown plat type m = None ->
     exists p f, plat = Some p /\ system_shutdown p = Some f /\
                 f type m = None).
Proof.
  repeat apply conj; by_blocking_entry.
Qed.

End DispatchMore.

(** X7 at a concrete input: the timer value that the recording board
    reports comes back as it is, and the board has recorded the call. *)
Lemma populated_entry_point_passes_through_rest_witness :
  sbi_platform_timer_value (Some recording_platform) (sample_machine [])
  = Some (1000, record_call 13 (sample_machine [])).
Proof.
  destruct (populated_entry_point_passes_through_rest
              recording_platform (sample_machine []))
    as (_ & _ & Htimer & _).
  apply (Htimer (fun m => Some (1000, record_call 13 m))). reflexivity.
Defined.

(** X8 at a concrete input: clearing every feature bit of the recording
    board, the MMIO-timer bit included, changes nothing to the dispatch
    of [timer_value]. *)
Lemma dispatch_reads_own_entry_point_only_witness :
  sbi_platform_timer_value (Some (with_features recording_platform 0))
    (sample_machine [])
  = sbi_platform_timer_value (Some recording_platform) (sample_machine []).
Proof.
  destruct (dispatch_reads_own_entry_point_only
              (with_features recording_platform 0) recording_platform
              (sample_machine []))
    as (_ & _ & _ & _ & _ & _ & _ & _ & _ & _ & _ & _ & Htimer & _).
  apply Htimer. reflexivity.
Defined.

(** X9 at a concrete input: [ipi_sync] on the recording board does not
    return, and it is the board's entry point that does not. *)
Lemma no_return_comes_from_entry_point_witness :
  exists p f,
    Some recording_platform = Some p /\
    ipi_sync p = Some f /\
    f 1 0 (sample_machine []) = None.
Proof.
  destruct (no_return_comes_from_entry_point
              (Some recording_platform) (sample_machine []))
    as (_ & _ & _ & _ & _ & _ & _ & _ & _ & Hsync & _).
  apply Hsync. reflexivity.
Defined.

(** ** Layout of the operation table *)

(** X10.  In the packed layout the data members take the first 0x58
    bytes ([disabled_hart_mask] is at 0x50) and the operation table
    follows as an array of pointers: the k-th entry point, in declaration
    order, is at offset 0x58 + k * (size of a pointer), and the whole
    structure takes 0x58 + 18 * (size of a pointer) bytes, so each entry
    lies inside it. *)
Theorem operation_table_offsets (ptr_size : Z) (k : nat) (member : string) :
  0 <= ptr_size ->
  nth_error operation_members k = Some member ->
  Layout.offsetof ptr_size member = Some (0x58 + Z.of_nat k * ptr_size) /\
  0x58 + Z.of_nat k * ptr_size + ptr_size <= sizeof_sbi_platform ptr_size /\
  sizeof_sbi_platform ptr_size = 0x58 + 18 * ptr_size /\
  Layout.offsetof ptr_size "disabled_hart_mask" = Some 0x50.
Proof.
  intros Hptr Hk.
  assert (Hsize : sizeof_sbi_platform ptr_size = 0x58 + 18 * ptr_size).
  { unfold sizeof_sbi_platform, packed_sizeof. cbn. lia. }
  rewrite Hsize.
  do 18 (destruct k as [|k];
         [ cbn in Hk; injection Hk as <-;
           split; [cbn; f_equal; lia | split; [lia | split; reflexivity]]
         | ]).
  cbn in Hk. destruct k; discriminate Hk.
Qed.

(** X10 at a concrete input: with 8-byte pointers [ipi_inject], the ninth
    entry point, is at offset 0x98. *)
Lemma operation_table_offsets_witness :
  Layout.offsetof 8 "ipi_inject" = Some (0x58 + Z.of_nat 8 * 8) /\
  0x58 + Z.of_nat 8 * 8 + 8 <= sizeof_sbi_platform 8 /\
  sizeof_sbi_platform 8 = 0x58 + 18 * 8 /\
  Layout.offsetof 8 "disabled_hart_mask" = Some 0x50.
Proof.
  apply (operation_table_offsets 8 8 "ipi_inject").
  - lia.
  - reflexivity.
Defined.
